(** * edx-xml-clean: the loader's diagnostics and the error report

    A shallow embedding of

    - [edx_xml_clean/loader/xml_exceptions.py]: the fifteen subclasses of
      [CourseError], each with a class attribute [_level] and an [__init__]
      that renders [_description] from [filename] and the keyword bag;
    - [edx-xml-clean/reporting/errors.py]: [report_errors], the loop that
      prints one line per stored error.

    Python values that reach this code are strings or [None]; a keyword bag
    is a finite map from names to such values; a failing dictionary lookup or
    attribute access is an exception, carried by an error monad; standard
    output is the text written so far. *)

From Stdlib Require Import String Ascii List NArith Lia.
From stdpp Require Import base option gmap strings.

Open Scope stdpp_scope.

(** String append computes on literals under [simpl] in this file. *)
#[local] Arguments String.append !s1 s2 : simpl nomatch.

(** ** Python strings

    A character is a code point; the embedding covers the code points below
    256, written as Rocq's [ascii]. *)
Module PyStr.

(** The line terminator written by [print]. *)
Definition newline : string := String "010"%char EmptyString.

(** [str.isspace] on one character, restricted to the code points below
    256: TAB..CR, FS..US, SPACE, NEL and NBSP. *)
Definition isspace (c : ascii) : bool :=
  let n := N_of_ascii c in
  ((9 <=? n) && (n <=? 13) || (28 <=? n) && (n <=? 32)
   || (n =? 133) || (n =? 160))%N.

(** [s.lstrip()] *)
Fixpoint lstrip (s : string) : string :=
  match s with
  | EmptyString => EmptyString
  | String c s' => if isspace c then lstrip s' else s
  end.

(** [s.rstrip()] *)
Fixpoint rstrip (s : string) : string :=
  match s with
  | EmptyString => EmptyString
  | String c s' =>
      match rstrip s' with
      | EmptyString => if isspace c then EmptyString else String c EmptyString
      | r => String c r
      end
  end.

(** [s.strip()]: whitespace removed at both ends. *)
Definition strip (s : string) : string := rstrip (lstrip s).

(** [s[:n]]: the first [n] characters, or all of [s] when it is shorter. *)
Fixpoint slice_to (n : nat) (s : string) : string :=
  match n, s with
  | S n', String c s' => String c (slice_to n' s')
  | _, _ => EmptyString
  end.

(** Vocabulary for stating what [strip] and the slice compute. *)
Fixpoint all_space (s : string) : bool :=
  match s with
  | EmptyString => true
  | String c s' => isspace c && all_space s'
  end.

Definition starts_with_space (s : string) : bool :=
  match s with
  | EmptyString => false
  | String c _ => isspace c
  end.

Fixpoint ends_with_space (s : string) : bool :=
  match s with
  | EmptyString => false
  | String c EmptyString => isspace c
  | String _ s' => ends_with_space s'
  end.

(** [sub in s] and [s.endswith(suf)], as propositions. *)
Definition contains (sub s : string) : Prop :=
  ∃ before after, s = before +:+ sub +:+ after.

Definition endswith (s suf : string) : Prop :=
  ∃ before, s = before +:+ suf.

(** [s.startswith(sub)] *)
Definition starts (sub s : string) : Prop :=
  ∃ after, s = sub +:+ after.

End PyStr.
Import PyStr.

(** ** Values, exceptions and the error monad *)

(** The values the keyword bags carry: a string, or [None] (the docstrings
    of [UnexpectedTag] and [UnexpectedContent] allow [None] for
    [url_name]). *)
Inductive value : Type :=
| VNone
| VStr (s : string).

(** Truthiness, as tested by [if kwargs['url_name']:]. *)
Definition truthy (v : value) : bool :=
  match v with
  | VNone => false
  | VStr EmptyString => false
  | VStr _ => true
  end.

(** The text an f-string puts for [{v}], which is [str(v)]. *)
Definition fmt (v : value) : string :=
  match v with
  | VNone => "None"
  | VStr s => s
  end.

Inductive exn : Type :=
| KeyError (key : string)
| AttributeError (attr : string).

Inductive result (A : Type) : Type :=
| Ok (a : A)
| Raise (e : exn).
Arguments Ok {A} a.
Arguments Raise {A} e.

#[export] Instance result_ret : MRet result := λ A a, Ok a.
#[export] Instance result_bind : MBind result :=
  λ A B f m, match m with Ok a => f a | Raise e => Raise e end.

(** [kwargs[key]] *)
Definition getitem (kwargs : gmap string value) (key : string) : result value :=
  match kwargs !! key with
  | Some v => Ok v
  | None => Raise (KeyError key)
  end.

(** [v.strip()]: [None] has no such attribute. *)
Definition value_strip (v : value) : result string :=
  match v with
  | VStr s => Ok (strip s)
  | VNone => Raise (AttributeError "strip")
  end.

(** ** [edx_xml_clean.exceptions]: the base class *)

(** Modelled from the spec: the enumeration [ErrorLevel] is imported from
    [edx_xml_clean.exceptions], which is not among the sources; the spec
    gives the severities ERROR and WARNING, the two members the subclasses
    use. *)
Inductive ErrorLevel : Type := ERROR | WARNING.

#[export] Instance ErrorLevel_eq_dec : EqDecision ErrorLevel.
Proof. solve_decision. Defined.

(** The fifteen subclasses of [CourseError], in the order of the file. *)
Module Kind.
Inductive t : Type :=
| CourseXMLDoesNotExist | InvalidXML | InvalidHTML | CourseXMLName
| TagMismatch | EmptyTag | ExtraURLName | InvalidPointer
| FileDoesNotExist | SelfPointer | UnexpectedTag | PossiblePointer
| UnexpectedContent | NonFlatURLName | NonFlatFilename.

#[global] Instance eq_dec : EqDecision t.
Proof. solve_decision. Defined.

Definition all : list t :=
  [ CourseXMLDoesNotExist; InvalidXML; InvalidHTML; CourseXMLName;
    TagMismatch; EmptyTag; ExtraURLName; InvalidPointer;
    FileDoesNotExist; SelfPointer; UnexpectedTag; PossiblePointer;
    UnexpectedContent; NonFlatURLName; NonFlatFilename ].

(** [type(self).__name__] *)
Definition __name__ (K : t) : string :=
  match K with
  | CourseXMLDoesNotExist => "CourseXMLDoesNotExist"
  | InvalidXML => "InvalidXML"
  | InvalidHTML => "InvalidHTML"
  | CourseXMLName => "CourseXMLName"
  | TagMismatch => "TagMismatch"
  | EmptyTag => "EmptyTag"
  | ExtraURLName => "ExtraURLName"
  | InvalidPointer => "InvalidPointer"
  | FileDoesNotExist => "FileDoesNotExist"
  | SelfPointer => "SelfPointer"
  | UnexpectedTag => "UnexpectedTag"
  | PossiblePointer => "PossiblePointer"
  | UnexpectedContent => "UnexpectedContent"
  | NonFlatURLName => "NonFlatURLName"
  | NonFlatFilename => "NonFlatFilename"
  end.
End Kind.

(** Modelled from the spec: the base class [CourseError] is not among the
    sources. An instance records its class, the [filename] handed to
    [super().__init__(filename)] and the [_description] its subclass
    assigns; the spec's Diagnostic has exactly these attributes, with the
    severity fixed by the kind. *)
Record CourseError : Type := {
  kind : Kind.t;
  _filename : string;
  _description : value
}.

(** ** [edx_xml_clean/loader/xml_exceptions.py]

    One module per class. [__init__ filename kwargs] follows the body of the
    Python method: every [kwargs['k']] is a [getitem], in the order in which
    Python evaluates them, and the instance returned carries the
    [_description] assigned last. *)

Module CourseXMLDoesNotExist.
Definition _level : ErrorLevel := ERROR.

Definition __init__ (filename : string) (kwargs : gmap string value)
  : result CourseError :=
  Ok {| kind := Kind.CourseXMLDoesNotExist;
        _filename := filename;
        _description := VStr ("The file '" +:+ filename +:+ "' does not exist.") |}.
End CourseXMLDoesNotExist.

Module InvalidXML.
Definition _level : ErrorLevel := ERROR.

Definition __init__ (filename : string) (kwargs : gmap string value)
  : result CourseError :=
  error ← getitem kwargs "error";
  Ok {| kind := Kind.InvalidXML;
        _filename := filename;
        _description := error |}.
End InvalidXML.

Module InvalidHTML.
Definition _level : ErrorLevel := ERROR.

Definition __init__ (filename : string) (kwargs : gmap string value)
  : result CourseError :=
  error ← getitem kwargs "error";
  Ok {| kind := Kind.InvalidHTML;
        _filename := filename;
        _description := error |}.
End InvalidHTML.

Module CourseXMLName.
Definition _level : ErrorLevel := WARNING.

Definition __init__ (filename : string) (kwargs : gmap string value)
  : result CourseError :=
  Ok {| kind := Kind.CourseXMLName;
        _filename := filename;
        _description :=
          VStr ("The course file, " +:+ filename +:+ ", is not named course.xml") |}.
End CourseXMLName.

Module TagMismatch.
Definition _level : ErrorLevel := ERROR.

Definition __init__ (filename : string) (kwargs : gmap string value)
  : result CourseError :=
  tag1 ← getitem kwargs "tag1";
  tag2 ← getitem kwargs "tag2";
  Ok {| kind := Kind.TagMismatch;
        _filename := filename;
        _description :=
          VStr ("A file is of type <" +:+ fmt tag1 +:+ "> but "
                +:+ "opens with a <" +:+ fmt tag2 +:+ "> tag") |}.
End TagMismatch.

Module EmptyTag.
Definition _level : ErrorLevel := WARNING.

Definition __init__ (filename : string) (kwargs : gmap string value)
  : result CourseError :=
  test ← getitem kwargs "url_name";
  if truthy test then
    tag ← getitem kwargs "tag";
    url_name ← getitem kwargs "url_name";
    Ok {| kind := Kind.EmptyTag;
          _filename := filename;
          _description :=
            VStr ("The <" +:+ fmt tag +:+ "> tag with url_name '" +:+ fmt url_name +:+ "' "
                  +:+ "is unexpectedly empty") |}
  else
    tag ← getitem kwargs "tag";
    Ok {| kind := Kind.EmptyTag;
          _filename := filename;
          _description :=
            VStr ("A <" +:+ fmt tag +:+ "> tag with no url_name is unexpectedly empty") |}.
End EmptyTag.

Module ExtraURLName.
Definition _level : ErrorLevel := ERROR.

Definition __init__ (filename : string) (kwargs : gmap string value)
  : result CourseError :=
  tag ← getitem kwargs "tag";
  Ok {| kind := Kind.ExtraURLName;
        _filename := filename;
        _description :=
          VStr ("The opening <" +:+ fmt tag +:+ "> tag shouldn't have a url_name attribute") |}.
End ExtraURLName.

Module InvalidPointer.
Definition _level : ErrorLevel := ERROR.

Definition __init__ (filename : string) (kwargs : gmap string value)
  : result CourseError :=
  tag ← getitem kwargs "tag";
  url_name ← getitem kwargs "url_name";
  Ok {| kind := Kind.InvalidPointer;
        _filename := filename;
        _description :=
          VStr ("The <" +:+ fmt tag +:+ "> tag with url_name '" +:+ fmt url_name +:+ "' "
                +:+ "looks like it is an invalid pointer tag") |}.
End InvalidPointer.

Module FileDoesNotExist.
Definition _level : ErrorLevel := ERROR.

Definition __init__ (filename : string) (kwargs : gmap string value)
  : result CourseError :=
  tag ← getitem kwargs "tag";
  url_name ← getitem kwargs "url_name";
  new_file ← getitem kwargs "new_file";
  Ok {| kind := Kind.FileDoesNotExist;
        _filename := filename;
        _description :=
          VStr ("The <" +:+ fmt tag +:+ "> tag with url_name " +:+ fmt url_name +:+ " points to "
                +:+ "the file " +:+ fmt new_file +:+ " that does not exist") |}.
End FileDoesNotExist.

Module SelfPointer.
Definition _level : ErrorLevel := ERROR.

Definition __init__ (filename : string) (kwargs : gmap string value)
  : result CourseError :=
  tag ← getitem kwargs "tag";
  url_name ← getitem kwargs "url_name";
  Ok {| kind := Kind.SelfPointer;
        _filename := filename;
        _description :=
          VStr ("The tag <" +:+ fmt tag +:+ "> with url_name " +:+ fmt url_name +:+ " "
                +:+ "appears to be pointing to itself") |}.
End SelfPointer.

Module UnexpectedTag.
Definition _level : ErrorLevel := ERROR.

Definition __init__ (filename : string) (kwargs : gmap string value)
  : result CourseError :=
  test ← getitem kwargs "url_name";
  if truthy test then
    tag ← getitem kwargs "tag";
    parent ← getitem kwargs "parent";
    url_name ← getitem kwargs "url_name";
    Ok {| kind := Kind.UnexpectedTag;
          _filename := filename;
          _description :=
            VStr ("A <" +:+ fmt tag +:+ "> tag was unexpectedly found inside the <"
                  +:+ fmt parent +:+ "> tag with "
                  +:+ "url_name " +:+ fmt url_name) |}
  else
    tag ← getitem kwargs "tag";
    parent ← getitem kwargs "parent";
    Ok {| kind := Kind.UnexpectedTag;
          _filename := filename;
          _description :=
            VStr ("A <" +:+ fmt tag +:+ "> tag was unexpectedly found inside a <"
                  +:+ fmt parent +:+ "> tag with "
                  +:+ "no url_name") |}.
End UnexpectedTag.

Module PossiblePointer.
Definition _level : ErrorLevel := WARNING.

Definition __init__ (filename : string) (kwargs : gmap string value)
  : result CourseError :=
  tag ← getitem kwargs "tag";
  url_name ← getitem kwargs "url_name";
  new_file ← getitem kwargs "new_file";
  Ok {| kind := Kind.PossiblePointer;
        _filename := filename;
        _description :=
          VStr ("The <" +:+ fmt tag +:+ "> tag with url_name '" +:+ fmt url_name +:+ "' "
                +:+ "is not a pointer, but a file that it could point to exists ("
                +:+ fmt new_file +:+ ")") |}.
End PossiblePointer.

Module UnexpectedContent.
Definition _level : ErrorLevel := ERROR.

Definition __init__ (filename : string) (kwargs : gmap string value)
  : result CourseError :=
  test ← getitem kwargs "url_name";
  description ←
    (if truthy test then
       tag ← getitem kwargs "tag";
       url_name ← getitem kwargs "url_name";
       Ok ("The <" +:+ fmt tag +:+ "> tag with url_name '" +:+ fmt url_name +:+ "'")
     else
       tag ← getitem kwargs "tag";
       Ok ("A <" +:+ fmt tag +:+ "> tag with no url_name"));
  text ← getitem kwargs "text";
  stripped ← value_strip text;
  Ok {| kind := Kind.UnexpectedContent;
        _filename := filename;
        _description :=
          VStr (description +:+ " should not contain any text ("
                +:+ slice_to 10 stripped +:+ "...)") |}.
End UnexpectedContent.

Module NonFlatURLName.
Definition _level : ErrorLevel := WARNING.

Definition __init__ (filename : string) (kwargs : gmap string value)
  : result CourseError :=
  tag ← getitem kwargs "tag";
  url_name ← getitem kwargs "url_name";
  Ok {| kind := Kind.NonFlatURLName;
        _filename := filename;
        _description :=
          VStr ("The <" +:+ fmt tag +:+ "> tag with url_name " +:+ fmt url_name +:+ " "
                +:+ "uses obsolete colon notation in the url_name to point to a subdirectory") |}.
End NonFlatURLName.

Module NonFlatFilename.
Definition _level : ErrorLevel := WARNING.

Definition __init__ (filename : string) (kwargs : gmap string value)
  : result CourseError :=
  test ← getitem kwargs "url_name";
  if truthy test then
    url_name ← getitem kwargs "url_name";
    Ok {| kind := Kind.NonFlatFilename;
          _filename := filename;
          _description :=
            VStr ("The <html> tag with url_name " +:+ fmt url_name +:+ " "
                  +:+ "uses obsolete colon notation to point to a subdirectory for filename "
                  +:+ filename) |}
  else
    Ok {| kind := Kind.NonFlatFilename;
          _filename := filename;
          _description :=
            VStr ("An <html> tag with no url_name "
                  +:+ "uses obsolete colon notation to point to a subdirectory for filename "
                  +:+ filename) |}.
End NonFlatFilename.

(** ** Instantiating a class by its name *)

(** [K(filename, **kwargs)]: the call runs the [__init__] of class [K]. *)
Definition construct (K : Kind.t) (filename : string) (kwargs : gmap string value)
  : result CourseError :=
  match K with
  | Kind.CourseXMLDoesNotExist => CourseXMLDoesNotExist.__init__ filename kwargs
  | Kind.InvalidXML => InvalidXML.__init__ filename kwargs
  | Kind.InvalidHTML => InvalidHTML.__init__ filename kwargs
  | Kind.CourseXMLName => CourseXMLName.__init__ filename kwargs
  | Kind.TagMismatch => TagMismatch.__init__ filename kwargs
  | Kind.EmptyTag => EmptyTag.__init__ filename kwargs
  | Kind.ExtraURLName => ExtraURLName.__init__ filename kwargs
  | Kind.InvalidPointer => InvalidPointer.__init__ filename kwargs
  | Kind.FileDoesNotExist => FileDoesNotExist.__init__ filename kwargs
  | Kind.SelfPointer => SelfPointer.__init__ filename kwargs
  | Kind.UnexpectedTag => UnexpectedTag.__init__ filename kwargs
  | Kind.PossiblePointer => PossiblePointer.__init__ filename kwargs
  | Kind.UnexpectedContent => UnexpectedContent.__init__ filename kwargs
  | Kind.NonFlatURLName => NonFlatURLName.__init__ filename kwargs
  | Kind.NonFlatFilename => NonFlatFilename.__init__ filename kwargs
  end.

(** The class attribute [_level], looked up through the class. *)
Definition _level (K : Kind.t) : ErrorLevel :=
  match K with
  | Kind.CourseXMLDoesNotExist => CourseXMLDoesNotExist._level
  | Kind.InvalidXML => InvalidXML._level
  | Kind.InvalidHTML => InvalidHTML._level
  | Kind.CourseXMLName => CourseXMLName._level
  | Kind.TagMismatch => TagMismatch._level
  | Kind.EmptyTag => EmptyTag._level
  | Kind.ExtraURLName => ExtraURLName._level
  | Kind.InvalidPointer => InvalidPointer._level
  | Kind.FileDoesNotExist => FileDoesNotExist._level
  | Kind.SelfPointer => SelfPointer._level
  | Kind.UnexpectedTag => UnexpectedTag._level
  | Kind.PossiblePointer => PossiblePointer._level
  | Kind.UnexpectedContent => UnexpectedContent._level
  | Kind.NonFlatURLName => NonFlatURLName._level
  | Kind.NonFlatFilename => NonFlatFilename._level
  end.

(** The named fields each docstring lists under "Expects kwargs"; the two
    classes without such a docstring read none. *)
Definition expects (K : Kind.t) : list string :=
  match K with
  | Kind.CourseXMLDoesNotExist => []
  | Kind.InvalidXML => ["error"]
  | Kind.InvalidHTML => ["error"]
  | Kind.CourseXMLName => []
  | Kind.TagMismatch => ["tag1"; "tag2"]
  | Kind.EmptyTag => ["tag"; "url_name"]
  | Kind.ExtraURLName => ["tag"]
  | Kind.InvalidPointer => ["tag"; "url_name"]
  | Kind.FileDoesNotExist => ["tag"; "url_name"; "new_file"]
  | Kind.SelfPointer => ["tag"; "url_name"]
  | Kind.UnexpectedTag => ["tag"; "parent"; "url_name"]
  | Kind.PossiblePointer => ["tag"; "url_name"; "new_file"]
  | Kind.UnexpectedContent => ["tag"; "url_name"; "text"]
  | Kind.NonFlatURLName => ["tag"; "url_name"]
  | Kind.NonFlatFilename => ["url_name"]
  end.

(** All the fields class [K] expects are in the bag. *)
Definition supplied (K : Kind.t) (kwargs : gmap string value) : bool :=
  forallb (λ field, bool_decide (is_Some (kwargs !! field))) (expects K).

(** The bag does not give [None] for [text], the one field on which a
    string method is called. *)
Definition text_is_str (kwargs : gmap string value) : bool :=
  match kwargs !! "text" with
  | Some VNone => false
  | _ => true
  end.

(** ** The properties [report_errors] reads

    Modelled from the spec: the properties of [CourseError] are defined in
    the missing base class. The spec's Diagnostic gives [level] as the
    severity of the kind, printed by its member name, [name] as the type name
    of the kind, and [filename] and [description] as the stored attributes. *)
Definition level_name (l : ErrorLevel) : string :=
  match l with
  | ERROR => "ERROR"
  | WARNING => "WARNING"
  end.

Definition level (error : CourseError) : string := level_name (_level (kind error)).
Definition name (error : CourseError) : string := Kind.__name__ (kind error).
Definition filename (error : CourseError) : string := _filename error.
Definition description (error : CourseError) : value := _description error.

(** ** The error store

    Modelled from the spec: the class of [errorstore] is not among the
    sources. The spec's DiagnosticStore is an ordered, append-only sequence
    read through [errors], and [raise_diagnostic] constructs a diagnostic and
    appends it. *)
Record ErrorStore : Type := { errors : list CourseError }.

Definition empty_store : ErrorStore := {| errors := [] |}.

Definition raise_diagnostic (store : ErrorStore) (K : Kind.t)
    (filename : string) (kwargs : gmap string value)
  : result (ErrorStore * CourseError) :=
  error ← construct K filename kwargs;
  Ok ({| errors := errors store ++ [error] |}, error).

(** ** [edx-xml-clean/reporting/errors.py]

    Standard output is the text written so far. [report_errors] receives the
    store by reference, so the embedding returns the store as the call leaves
    it together with the new output. *)

(** [print(s)] writes [s] and a line terminator. *)
Definition print (s : string) (stdout : string) : string :=
  stdout +:+ s +:+ newline.

(** The f-string of the loop body. *)
Definition report_line (error : CourseError) : string :=
  level error +:+ " (" +:+ filename error +:+ "): "
  +:+ fmt (description error) +:+ " (" +:+ name error +:+ ")".

(** [for error in l: print(...)] *)
Fixpoint report_loop (l : list CourseError) (stdout : string) : string :=
  match l with
  | [] => stdout
  | error :: rest => report_loop rest (print (report_line error) stdout)
  end.

(** A list is truthy when it is not empty. *)
Definition list_truthy {A : Type} (l : list A) : bool :=
  match l with
  | [] => false
  | _ :: _ => true
  end.

Definition report_errors (errorstore : ErrorStore) (stdout : string)
  : ErrorStore * string :=
  if list_truthy (errors errorstore) then
    (errorstore, report_loop (errors errorstore) stdout)
  else
    (errorstore, print "No errors found!" stdout).

(** The text of a sequence of lines, each with its terminator. *)
Fixpoint unlines (lines : list string) : string :=
  match lines with
  | [] => EmptyString
  | l :: rest => l +:+ newline +:+ unlines rest
  end.

(** The number of line terminators in a text. *)
Fixpoint count_newlines (s : string) : nat :=
  match s with
  | EmptyString => 0
  | String c s' => (if Ascii.eqb c "010"%char then 1 else 0) + count_newlines s'
  end.

(** A sample store, after three raises: a warning, an error, and the same warning
    again. *)
Definition sample_errors : list CourseError :=
  [ {| kind := Kind.CourseXMLName; _filename := "root.xml";
       _description := VStr "The course file, root.xml, is not named course.xml" |};
    {| kind := Kind.InvalidXML; _filename := "chapter/week1.xml";
       _description := VStr "Premature end of data in tag chapter line 1" |};
    {| kind := Kind.CourseXMLName; _filename := "root.xml";
       _description := VStr "The course file, root.xml, is not named course.xml" |} ].

Definition sample_store : ErrorStore := {| errors := sample_errors |}.

(** The keys of each [__init__] in the order in which its body first reads
    them: the test of [if kwargs['url_name']:] comes before the f-string. *)
Definition lookup_order (K : Kind.t) : list string :=
  match K with
  | Kind.CourseXMLDoesNotExist => []
  | Kind.InvalidXML => ["error"]
  | Kind.InvalidHTML => ["error"]
  | Kind.CourseXMLName => []
  | Kind.TagMismatch => ["tag1"; "tag2"]
  | Kind.EmptyTag => ["url_name"; "tag"]
  | Kind.ExtraURLName => ["tag"]
  | Kind.InvalidPointer => ["tag"; "url_name"]
  | Kind.FileDoesNotExist => ["tag"; "url_name"; "new_file"]
  | Kind.SelfPointer => ["tag"; "url_name"]
  | Kind.UnexpectedTag => ["url_name"; "tag"; "parent"]
  | Kind.PossiblePointer => ["tag"; "url_name"; "new_file"]
  | Kind.UnexpectedContent => ["url_name"; "tag"; "text"]
  | Kind.NonFlatURLName => ["tag"; "url_name"]
  | Kind.NonFlatFilename => ["url_name"]
  end.

(** [key not in kwargs] *)
Definition missing (kwargs : gmap string value) (key : string) : bool :=
  match kwargs !! key with
  | None => true
  | Some _ => false
  end.

(** [s[-1]] when [s] is not empty. *)
Fixpoint last_char (s : string) : option ascii :=
  match s with
  | EmptyString => None
  | String c EmptyString => Some c
  | String _ s' => last_char s'
  end.

(** A store holding one [UnexpectedContent] whose text has a line break
    inside: the instance the constructor returns for the text
    [Hello], line break, [  world]. *)
Definition newline_error : CourseError :=
  {| kind := Kind.UnexpectedContent; _filename := "html/intro.xml";
     _description :=
       VStr ("A <html> tag with no url_name should not contain any text (Hello"
             +:+ newline +:+ "  wo...)") |}.

Definition newline_store : ErrorStore := {| errors := [newline_error] |}.

(** * Properties *)

(** ** Strings *)

Lemma append_nil_r (s : string) : s +:+ "" = s.
Proof. induction s as [|c s IH]; simpl; [reflexivity | now rewrite IH]. Qed.

Lemma append_assoc (a b c : string) : (a +:+ b) +:+ c = a +:+ b +:+ c.
Proof. induction a as [|x a IH]; simpl; [reflexivity | now rewrite IH]. Qed.

Lemma append_length (a b : string) :
  String.length (a +:+ b) = String.length a + String.length b.
Proof. induction a as [|x a IH]; simpl; [reflexivity | now rewrite IH]. Qed.

(** Flatten nested appends and compute the literals. *)
Ltac string_norm := repeat rewrite append_assoc; simpl.

Lemma unlines_app (l1 l2 : list string) :
  unlines (l1 ++ l2) = unlines l1 +:+ unlines l2.
Proof.
  induction l1 as [|x l1 IH]; simpl; [reflexivity |].
  rewrite IH. now string_norm.
Qed.

(** What [strip] and the slice compute. *)

Lemma lstrip_decompose (s : string) :
  ∃ lead : string,
    s = lead +:+ lstrip s ∧ all_space lead = true ∧
    starts_with_space (lstrip s) = false.
Proof.
  induction s as [|c s (lead & Hs & Hlead & Hstart)].
  - exists "". repeat split.
  - cbn [lstrip]. destruct (isspace c) eqn:Hc.
    + exists (String c lead). cbn [all_space]. rewrite Hc, Hlead.
      repeat split; [| assumption]. simpl. now rewrite <- Hs.
    + exists "". repeat split. exact Hc.
Qed.

Lemma rstrip_decompose (s : string) :
  ∃ trail : string,
    s = rstrip s +:+ trail ∧ all_space trail = true ∧
    ends_with_space (rstrip s) = false.
Proof.
  induction s as [|c s (trail & Hs & Htrail & Hend)].
  - exists "". repeat split.
  - cbn [rstrip]. destruct (rstrip s) as [|a r] eqn:R.
    + simpl in Hs. subst trail. destruct (isspace c) eqn:Hc.
      * exists (String c s). cbn [all_space]. rewrite Hc, Htrail.
        repeat split.
      * exists s. repeat split; [assumption | exact Hc].
    + exists trail. repeat split; [| assumption | exact Hend].
      simpl. simpl in Hs. now rewrite <- Hs.
Qed.

Lemma rstrip_keeps_start (s : string) :
  starts_with_space s = false → starts_with_space (rstrip s) = false.
Proof.
  destruct s as [|c s]; [reflexivity |]. cbn [starts_with_space rstrip].
  intros Hc. destruct (rstrip s); [rewrite Hc |]; exact Hc.
Qed.

Lemma strip_decompose (s : string) :
  ∃ lead trail : string,
    s = lead +:+ strip s +:+ trail ∧
    all_space lead = true ∧ all_space trail = true ∧
    starts_with_space (strip s) = false ∧ ends_with_space (strip s) = false.
Proof.
  destruct (lstrip_decompose s) as (lead & Hs & Hlead & Hstart).
  destruct (rstrip_decompose (lstrip s)) as (trail & Hl & Htrail & Hend).
  exists lead, trail. unfold strip.
  repeat split; try assumption; [| now apply rstrip_keeps_start].
  now rewrite <- Hl.
Qed.

Lemma slice_to_decompose (n : nat) (s : string) :
  ∃ rest : string,
    s = slice_to n s +:+ rest ∧
    String.length (slice_to n s) = n `min` String.length s.
Proof.
  revert s. induction n as [|n IH]; intros s.
  - exists s. split; reflexivity.
  - destruct s as [|c s]; [exists ""; split; reflexivity |].
    destruct (IH s) as (rest & Hs & Hlen). exists rest.
    cbn [slice_to String.length]. rewrite Hlen. split; [| reflexivity].
    simpl. now rewrite <- Hs.
Qed.

Lemma endswith_app (before s suf : string) :
  endswith s suf → endswith (before +:+ s) suf.
Proof.
  intros [b ->]. exists (before +:+ b). now rewrite append_assoc.
Qed.

Lemma contains_app_r (before s sub : string) :
  contains sub s → contains sub (before +:+ s).
Proof.
  intros (b & a & ->). exists (before +:+ b), a. now rewrite append_assoc.
Qed.

Lemma contains_prefix (sub after : string) : contains sub (sub +:+ after).
Proof. exists "", after. reflexivity. Qed.

(** ** The loop of [report_errors] *)

Lemma report_loop_unlines (l : list CourseError) (stdout : string) :
  report_loop l stdout = stdout +:+ unlines (map report_line l).
Proof.
  revert stdout. induction l as [|error rest IH]; intros stdout.
  - symmetry. apply append_nil_r.
  - cbn [report_loop map unlines]. rewrite IH. unfold print.
    now rewrite !append_assoc.
Qed.

Lemma count_newlines_app (a b : string) :
  count_newlines (a +:+ b) = count_newlines a + count_newlines b.
Proof. induction a as [|x a IH]; simpl; [reflexivity | rewrite IH; lia]. Qed.

Lemma count_newlines_unlines (lines : list string) :
  Forall (λ l, count_newlines l = 0) lines →
  count_newlines (unlines lines) = length lines.
Proof.
  induction 1 as [|l rest Hl _ IH]; [reflexivity |].
  cbn [unlines length]. rewrite !count_newlines_app, Hl, IH. reflexivity.
Qed.

Lemma count_newlines_unlines_sum (lines : list string) :
  count_newlines (unlines lines)
  = length lines + sum_list (map count_newlines lines).
Proof.
  induction lines as [|l rest IH]; [reflexivity |].
  cbn [unlines length map sum_list]. rewrite !count_newlines_app, IH.
  cbn. lia.
Qed.

Lemma inner_newlines_zero (lines : list string) :
  sum_list (map count_newlines lines) = 0 ↔
  Forall (λ l, count_newlines l = 0) lines.
Proof.
  induction lines as [|l rest IH]; cbn [map sum_list].
  - split; [constructor | reflexivity].
  - rewrite Forall_cons, <- IH. unfold id.
    split; [intros H; split; lia | intros [H1 H2]; lia].
Qed.

Lemma report_errors_nonempty (errorstore : ErrorStore) (stdout : string) :
  errors errorstore ≠ [] →
  report_errors errorstore stdout
  = (errorstore, stdout +:+ unlines (map report_line (errors errorstore))).
Proof.
  intros Hne. unfold report_errors.
  destruct (errors errorstore) as [|error rest] eqn:E; [congruence |].
  cbn [list_truthy]. now rewrite report_loop_unlines.
Qed.

Lemma report_errors_empty (errorstore : ErrorStore) (stdout : string) :
  errors errorstore = [] →
  report_errors errorstore stdout
  = (errorstore, stdout +:+ unlines ["No errors found!"]).
Proof. intros E. unfold report_errors. now rewrite E. Qed.

(** C1, amended: on a store of N >= 1 errors, [report_errors] writes
    exactly N records, the i-th being the i-th error of the store rendered as
    [{level} ({filename}): {description} ({name})] and followed by a line
    terminator; nothing is dropped, merged or moved. The fields are printed
    as they are: the text written has N terminators plus those inside the
    rendered records, so it is N lines exactly when no record holds a
    terminator of its own. *)
Theorem report_errors_one_line_per_error
    (errorstore : ErrorStore) (stdout : string) :
  1 ≤ length (errors errorstore) →
  ∃ lines : list string,
    (report_errors errorstore stdout).2 = stdout +:+ unlines lines ∧
    length lines = length (errors errorstore) ∧
    (∀ (i : nat) (error : CourseError),
        errors errorstore !! i = Some error →
        lines !! i
        = Some (level error +:+ " (" +:+ filename error +:+ "): "
                +:+ fmt (description error) +:+ " (" +:+ name error +:+ ")")) ∧
    count_newlines (unlines lines)
    = length (errors errorstore) + sum_list (map count_newlines lines) ∧
    (count_newlines (unlines lines) = length (errors errorstore) ↔
     Forall (λ l, count_newlines l = 0) lines).
Proof.
  intros HN. exists (map report_line (errors errorstore)).
  assert (errors errorstore ≠ []) as Hne.
  { intros E. rewrite E in HN. simpl in HN. lia. }
  rewrite report_errors_nonempty by exact Hne.
  split; [reflexivity |]. split; [apply length_map |]. split.
  - intros i error Hi. rewrite list_lookup_fmap, Hi. reflexivity.
  - rewrite count_newlines_unlines_sum, length_map.
    split; [reflexivity |]. rewrite <- inner_newlines_zero. lia.
Qed.

(** The count of C1 as first stated fails on a store the constructors
    build: the excerpt of an [UnexpectedContent] keeps a line break that
    lies inside the text, so one error is reported on two lines. *)
Lemma report_errors_inner_newline :
  raise_diagnostic empty_store Kind.UnexpectedContent "html/intro.xml"
    (<["tag" := VStr "html"]>
       (<["url_name" := VNone]>
          {[ "text" := VStr ("Hello" +:+ newline +:+ "  world") ]}))
  = Ok (newline_store, newline_error) ∧
  length (errors newline_store) = 1 ∧
  (report_errors newline_store "").2
  = "ERROR (html/intro.xml): A <html> tag with no url_name should not contain any text (Hello"
    +:+ newline +:+ "  wo...) (UnexpectedContent)" +:+ newline ∧
  count_newlines (report_errors newline_store "").2 = 2 ∧
  ¬ (∀ (errorstore : ErrorStore) (stdout : string),
        1 ≤ length (errors errorstore) →
        ∃ text : string,
          (report_errors errorstore stdout).2 = stdout +:+ text ∧
          count_newlines text = length (errors errorstore)).
Proof.
  split; [reflexivity |]. split; [reflexivity |]. split; [reflexivity |].
  split; [reflexivity |].
  intros H. destruct (H newline_store "") as (text & Htext & Hcount).
  - cbn. lia.
  - cbn [String.append] in Htext. rewrite <- Htext in Hcount.
    vm_compute in Hcount. discriminate.
Qed.

(** C2: on a store without errors, [report_errors] writes one line and
    nothing else: the fixed message [No errors found!] and the line
    terminator, the same for every such call; the store is left as it
    was. *)
Theorem report_errors_empty_store_one_line
    (errorstore : ErrorStore) (stdout : string) :
  length (errors errorstore) = 0 →
  ∃ text : string,
    report_errors errorstore stdout = (errorstore, stdout +:+ text) ∧
    text = unlines ["No errors found!"] ∧
    text = "No errors found!" +:+ newline ∧
    count_newlines text = 1 ∧
    contains "o errors found" text.
Proof.
  intros HN. exists (unlines ["No errors found!"]).
  split; [apply report_errors_empty; now apply length_zero_iff_nil |].
  repeat split. now exists "N", ("!" +:+ newline).
Qed.

(** C8: the text [report_errors] writes is determined by the store alone,
    and the call leaves the store as it was; so a second call on the same
    store appends the very same text again. *)
Theorem report_errors_twice_same_output (errorstore : ErrorStore) :
  ∃ text : string,
    (∀ stdout : string,
        report_errors errorstore stdout = (errorstore, stdout +:+ text)) ∧
    (∀ stdout : string,
        let first := report_errors errorstore stdout in
        let second := report_errors first.1 first.2 in
        first.2 = stdout +:+ text ∧
        second.2 = first.2 +:+ text ∧
        second.1 = errorstore).
Proof.
  assert (∃ text, ∀ stdout,
             report_errors errorstore stdout = (errorstore, stdout +:+ text))
    as [text Htext].
  { destruct (errors errorstore) as [|error rest] eqn:E.
    - eexists. intros stdout. now apply report_errors_empty.
    - eexists. intros stdout. apply report_errors_nonempty. congruence. }
  exists text. split; [exact Htext |].
  intros stdout. cbn zeta. rewrite (Htext stdout). cbn [fst snd].
  rewrite (Htext (stdout +:+ text)). cbn [fst snd]. auto.
Qed.

(** C9: the line written for a store without errors is the text
    [No errors found!]. *)
Theorem report_errors_no_errors_found
    (errorstore : ErrorStore) (stdout : string) :
  errors errorstore = [] →
  (report_errors errorstore stdout).2
  = stdout +:+ "No errors found!" +:+ newline.
Proof.
  intros E. rewrite report_errors_empty by exact E. cbn [snd unlines].
  now rewrite append_nil_r.
Qed.

(** C7: raising [CourseXMLDoesNotExist] with [filename="course.xml"] into
    an empty store succeeds, and [report_errors] on the resulting store
    writes the single line
    [ERROR (course.xml): The file 'course.xml' does not exist. (CourseXMLDoesNotExist)]. *)
Theorem report_course_xml_does_not_exist (kwargs : gmap string value) :
  ∃ (errorstore : ErrorStore) (error : CourseError),
    raise_diagnostic empty_store Kind.CourseXMLDoesNotExist "course.xml" kwargs
    = Ok (errorstore, error) ∧
    errors errorstore = [error] ∧
    ∀ stdout : string,
      report_errors errorstore stdout
      = (errorstore,
         stdout +:+ unlines
           ["ERROR (course.xml): The file 'course.xml' does not exist. (CourseXMLDoesNotExist)"]).
Proof.
  eexists _, _. split; [reflexivity |]. split; [reflexivity |].
  intros stdout. reflexivity.
Qed.

(** ** The catalogue *)

(** Unfold a call of a class down to its dictionary lookups. *)
Ltac unfold_init :=
  unfold construct,
    CourseXMLDoesNotExist.__init__, InvalidXML.__init__, InvalidHTML.__init__,
    CourseXMLName.__init__, TagMismatch.__init__, EmptyTag.__init__,
    ExtraURLName.__init__, InvalidPointer.__init__, FileDoesNotExist.__init__,
    SelfPointer.__init__, UnexpectedTag.__init__, PossiblePointer.__init__,
    UnexpectedContent.__init__, NonFlatURLName.__init__,
    NonFlatFilename.__init__, value_strip, getitem, mbind, result_bind in *.

Lemma construct_kind (K : Kind.t) (filename : string)
    (kwargs : gmap string value) (error : CourseError) :
  construct K filename kwargs = Ok error →
  kind error = K ∧ _filename error = filename.
Proof.
  destruct K; unfold_init; intros H;
    repeat case_match; simplify_eq; split; reflexivity.
Qed.

(** C10: there are fifteen kinds; the five with level WARNING are
    CourseXMLName, EmptyTag, PossiblePointer, NonFlatURLName and
    NonFlatFilename, the other ten have level ERROR; an instance a class
    constructs is of that class and reports the level of that class. *)
Theorem levels_of_the_kinds :
  length Kind.all = 15 ∧ NoDup Kind.all ∧ (∀ K : Kind.t, K ∈ Kind.all) ∧
  filter (λ K, _level K = WARNING) Kind.all
  = [ Kind.CourseXMLName; Kind.EmptyTag; Kind.PossiblePointer;
      Kind.NonFlatURLName; Kind.NonFlatFilename ] ∧
  filter (λ K, _level K = ERROR) Kind.all
  = [ Kind.CourseXMLDoesNotExist; Kind.InvalidXML; Kind.InvalidHTML;
      Kind.TagMismatch; Kind.ExtraURLName; Kind.InvalidPointer;
      Kind.FileDoesNotExist; Kind.SelfPointer; Kind.UnexpectedTag;
      Kind.UnexpectedContent ] ∧
  ∀ (K : Kind.t) (filename : string) (kwargs : gmap string value)
    (error : CourseError),
    construct K filename kwargs = Ok error →
    kind error = K ∧ level error = level_name (_level K).
Proof.
  split; [reflexivity |]. split; [| split; [| split; [| split]]].
  - apply (bool_decide_unpack _). vm_compute. exact I.
  - intros K. destruct K; unfold Kind.all; set_solver.
  - reflexivity.
  - reflexivity.
  - intros K filename kwargs error H.
    apply construct_kind in H as [HK _]. unfold level. now rewrite HK.
Qed.

Lemma levels_of_the_kinds_witness :
  kind {| kind := Kind.EmptyTag; _filename := "chapter/week1.xml";
          _description := VStr "A <chapter> tag with no url_name is unexpectedly empty" |}
  = Kind.EmptyTag ∧
  level {| kind := Kind.EmptyTag; _filename := "chapter/week1.xml";
           _description := VStr "A <chapter> tag with no url_name is unexpectedly empty" |}
  = "WARNING".
Proof.
  destruct levels_of_the_kinds as (_ & _ & _ & _ & _ & H).
  apply (H Kind.EmptyTag "chapter/week1.xml"
           (<["tag" := VStr "chapter"]> (<["url_name" := VNone]> ∅))).
  vm_compute. reflexivity.
Defined.

(** C6: when the bag lacks one of the fields class [K] expects, the call
    raises [KeyError] for a field that [K] expects and the bag lacks; no
    instance is produced. *)
Theorem construct_missing_field
    (K : Kind.t) (filename : string) (kwargs : gmap string value)
    (field : string) :
  In field (expects K) →
  kwargs !! field = None →
  ∃ key : string,
    construct K filename kwargs = Raise (KeyError key) ∧
    In key (expects K) ∧ kwargs !! key = None.
Proof.
  intros Hin Hnone.
  destruct K; simpl in Hin; intuition subst; unfold_init;
    repeat case_match; simplify_eq;
    (eexists; split; [reflexivity |]; split; [simpl; tauto | assumption]).
Qed.

Lemma construct_missing_field_witness :
  ∃ key : string,
    construct Kind.TagMismatch "chapter/week1.xml" {[ "tag1" := VStr "chapter" ]}
    = Raise (KeyError key) ∧
    In key (expects Kind.TagMismatch) ∧
    ({[ "tag1" := VStr "chapter" ]} : gmap string value) !! key = None.
Proof.
  apply (construct_missing_field Kind.TagMismatch "chapter/week1.xml"
           {[ "tag1" := VStr "chapter" ]} "tag2").
  - simpl. tauto.
  - vm_compute. reflexivity.
Defined.

(** Turn [supplied K kwargs = true] into one successful lookup per field. *)
Ltac use_supplied H :=
  unfold supplied in H; cbn [expects forallb] in H;
  repeat match type of H with
         | (_ && _ = true) => apply andb_prop in H as [?Hf H]
         end;
  clear H;
  repeat match goal with
         | Hf : bool_decide (is_Some _) = true |- _ =>
             apply bool_decide_eq_true in Hf as [? Hf]
         end.

(** The first half of C5 fails at [InvalidXML]: its description is the
    [error] text as supplied, which may be the empty string. *)
Lemma invalid_xml_empty_description :
  supplied Kind.InvalidXML {[ "error" := VStr "" ]} = true ∧
  construct Kind.InvalidXML "chapter/week1.xml" {[ "error" := VStr "" ]}
  = Ok {| kind := Kind.InvalidXML; _filename := "chapter/week1.xml";
          _description := VStr "" |} ∧
  ¬ (∀ (K : Kind.t) (filename : string) (kwargs : gmap string value),
        supplied K kwargs = true →
        ∃ (error : CourseError) (s : string),
          construct K filename kwargs = Ok error ∧
          description error = VStr s ∧ s ≠ "").
Proof.
  split; [reflexivity |]. split; [reflexivity |].
  intros H.
  destruct (H Kind.InvalidXML "chapter/week1.xml" {[ "error" := VStr "" ]})
    as (error & s & Hc & Hd & Hs); [reflexivity |].
  vm_compute in Hc. simplify_eq. cbv in Hd. simplify_eq.
Qed.

(** [None] for [text] is outside the docstring of [UnexpectedContent]: the
    call of [strip] on it raises. *)
Lemma unexpected_content_text_none :
  construct Kind.UnexpectedContent "chapter/week1.xml"
    (<["tag" := VStr "chapter"]>
       (<["url_name" := VStr "week1"]> {[ "text" := VNone ]}))
  = Raise (AttributeError "strip").
Proof. reflexivity. Qed.

(** C5, amended: when the bag holds every field class [K] expects, and
    does not give [None] for [text], the call returns an instance. Its
    description is a non-empty string for every class but [InvalidXML] and
    [InvalidHTML], whose description is the [error] value as supplied. *)
Theorem construct_well_formed
    (K : Kind.t) (filename : string) (kwargs : gmap string value) :
  supplied K kwargs = true →
  (K = Kind.UnexpectedContent → text_is_str kwargs = true) →
  ∃ error : CourseError,
    construct K filename kwargs = Ok error ∧
    (K ≠ Kind.InvalidXML → K ≠ Kind.InvalidHTML →
     ∃ s : string, description error = VStr s ∧ s ≠ "") ∧
    (K = Kind.InvalidXML ∨ K = Kind.InvalidHTML →
     kwargs !! "error" = Some (description error)).
Proof.
  intros Hsup Htext. unfold text_is_str in Htext.
  destruct K; try specialize (Htext eq_refl); use_supplied Hsup; unfold_init;
    repeat match goal with
           | Hf : kwargs !! _ = Some _ |- _ => rewrite Hf in *; clear Hf
           end;
    repeat case_match; simplify_eq;
    (eexists; split; [reflexivity |]; split;
     [ intros ? ?;
       first [ congruence | eexists; split; [reflexivity | discriminate] ]
     | intros [?|?]; first [ discriminate | reflexivity ] ]).
Qed.

Lemma construct_well_formed_witness :
  ∃ error : CourseError,
    construct Kind.UnexpectedContent "chapter/week1.xml"
      (<["tag" := VStr "chapter"]>
         (<["url_name" := VNone]> {[ "text" := VStr " stray text " ]}))
    = Ok error ∧
    (Kind.UnexpectedContent ≠ Kind.InvalidXML →
     Kind.UnexpectedContent ≠ Kind.InvalidHTML →
     ∃ s : string, description error = VStr s ∧ s ≠ "") ∧
    (Kind.UnexpectedContent = Kind.InvalidXML
     ∨ Kind.UnexpectedContent = Kind.InvalidHTML →
     (<["tag" := VStr "chapter"]>
        (<["url_name" := VNone]> {[ "text" := VStr " stray text " ]})
      : gmap string value) !! "error" = Some (description error)).
Proof.
  apply (construct_well_formed Kind.UnexpectedContent "chapter/week1.xml").
  - vm_compute. reflexivity.
  - intros _. vm_compute. reflexivity.
Defined.

(** ** [UnexpectedContent]: the excerpt of the text *)

Lemma unexpected_content_description
    (filename : string) (kwargs : gmap string value) (error : CourseError) :
  construct Kind.UnexpectedContent filename kwargs = Ok error →
  ∃ (text head : string),
    kwargs !! "text" = Some (VStr text) ∧
    description error
    = VStr (head +:+ " should not contain any text ("
            +:+ slice_to 10 (strip text) +:+ "...)").
Proof.
  unfold_init. intros H. repeat case_match; simplify_eq;
    eexists _, _; (split; [reflexivity |]); reflexivity.
Qed.

(** C4: the description of an [UnexpectedContent] ends with the excerpt in
    parentheses: the text without the whitespace at its two ends, cut to its
    first ten characters, then three dots whether or not anything was cut.
    For the text [This is a long paragraph of text] the description ends in
    [(This is a ...)]. *)
Theorem unexpected_content_excerpt
    (filename : string) (kwargs : gmap string value) (error : CourseError) :
  construct Kind.UnexpectedContent filename kwargs = Ok error →
  ∃ (text s lead core trail excerpt rest : string),
    kwargs !! "text" = Some (VStr text) ∧
    description error = VStr s ∧
    endswith s ("(" +:+ excerpt +:+ "...)") ∧
    text = lead +:+ core +:+ trail ∧
    all_space lead = true ∧ all_space trail = true ∧
    starts_with_space core = false ∧ ends_with_space core = false ∧
    core = excerpt +:+ rest ∧
    String.length excerpt = 10 `min` String.length core ∧
    excerpt = slice_to 10 (strip text) ∧
    (text = "This is a long paragraph of text" →
     endswith s "(This is a ...)").
Proof.
  intros H.
  destruct (unexpected_content_description _ _ _ H) as (text & head & Ht & Hd).
  destruct (strip_decompose text)
    as (lead & trail & Htext & Hlead & Htrail & Hstart & Hend).
  destruct (slice_to_decompose 10 (strip text)) as (rest & Hcore & Hlen).
  exists text, (head +:+ " should not contain any text ("
                +:+ slice_to 10 (strip text) +:+ "...)"),
    lead, (strip text), trail, (slice_to 10 (strip text)), rest.
  assert (∀ e : string,
            endswith (head +:+ " should not contain any text (" +:+ e +:+ "...)")
                     ("(" +:+ e +:+ "...)")) as Hsuffix.
  { intros e. apply endswith_app. now exists " should not contain any text ". }
  repeat split; try assumption; [apply Hsuffix |].
  intros ->. apply (Hsuffix "This is a ").
Qed.

Lemma unexpected_content_excerpt_witness :
  ∃ (text s lead core trail excerpt rest : string),
    (<["tag" := VStr "html"]>
       (<["url_name" := VStr "intro"]>
          {[ "text" := VStr "This is a long paragraph of text" ]})
     : gmap string value) !! "text" = Some (VStr text) ∧
    description
      {| kind := Kind.UnexpectedContent; _filename := "html/intro.xml";
         _description :=
           VStr "The <html> tag with url_name 'intro' should not contain any text (This is a ...)" |}
    = VStr s ∧
    endswith s ("(" +:+ excerpt +:+ "...)") ∧
    text = lead +:+ core +:+ trail ∧
    all_space lead = true ∧ all_space trail = true ∧
    starts_with_space core = false ∧ ends_with_space core = false ∧
    core = excerpt +:+ rest ∧
    String.length excerpt = 10 `min` String.length core ∧
    excerpt = slice_to 10 (strip text) ∧
    (text = "This is a long paragraph of text" →
     endswith s "(This is a ...)").
Proof.
  apply (unexpected_content_excerpt "html/intro.xml"
           (<["tag" := VStr "html"]>
              (<["url_name" := VStr "intro"]>
                 {[ "text" := VStr "This is a long paragraph of text" ]}))).
  vm_compute. reflexivity.
Defined.

(** The trim and the cut on inputs where each one matters. *)
Example excerpt_trims_then_cuts :
  slice_to 10 (strip "   padded text with spaces   ") = "padded tex".
Proof. reflexivity. Qed.

Example excerpt_short_text_keeps_dots :
  construct Kind.UnexpectedContent "html/intro.xml"
    (<["tag" := VStr "html"]>
       (<["url_name" := VNone]> {[ "text" := VStr " hi " ]}))
  = Ok {| kind := Kind.UnexpectedContent; _filename := "html/intro.xml";
          _description :=
            VStr "A <html> tag with no url_name should not contain any text (hi...)" |}.
Proof. reflexivity. Qed.

(** ** The two phrasings around [url_name] *)

Lemma starts_nil (s : string) : starts "" s.
Proof. now exists s. Qed.

Lemma starts_refl (s : string) : starts s s.
Proof. exists "". now rewrite append_nil_r. Qed.

Lemma starts_prefix (a s : string) : starts a (a +:+ s).
Proof. now exists s. Qed.

Lemma starts_cons (c : ascii) (sub s : string) :
  starts sub s → starts (String c sub) (String c s).
Proof. intros [after ->]. now exists after. Qed.

Lemma starts_app (a sub s : string) :
  starts sub s → starts (a +:+ sub) (a +:+ s).
Proof. intros [after ->]. exists after. now rewrite append_assoc. Qed.

Lemma starts_contains (sub s : string) : starts sub s → contains sub s.
Proof. intros [after ->]. now exists "", after. Qed.

Lemma contains_cons (c : ascii) (sub s : string) :
  contains sub s → contains sub (String c s).
Proof. intros (b & a & ->). now exists (String c b), a. Qed.

(** Look for a phrase in a description, from left to right. *)
Ltac starts_here :=
  repeat first
    [ apply starts_nil | apply starts_refl | apply starts_prefix
    | apply starts_cons | apply starts_app ].

Ltac find_phrase :=
  repeat (simpl; rewrite append_assoc); simpl;
  repeat first
    [ solve [ apply starts_contains; starts_here ]
    | apply contains_cons
    | apply contains_app_r ].

(** Lookups in a bag whose [url_name] was replaced. *)
Ltac lookup_replaced :=
  repeat first
    [ rewrite lookup_insert_eq
    | rewrite lookup_insert_ne by discriminate ].

(** C3: for [EmptyTag], [UnexpectedTag], [UnexpectedContent] and
    [NonFlatFilename], when the [url_name] supplied is falsy ([None] or the
    empty string) the description contains [with no url_name] and does not
    depend on which falsy value was given; when it is truthy the description
    contains [with url_name] followed by the value, in single quotes for
    [EmptyTag] and [UnexpectedContent]. *)
Theorem url_name_phrasing
    (K : Kind.t) (filename : string) (kwargs : gmap string value)
    (url_name : value) (error : CourseError) :
  In K [ Kind.EmptyTag; Kind.UnexpectedTag; Kind.UnexpectedContent;
         Kind.NonFlatFilename ] →
  kwargs !! "url_name" = Some url_name →
  construct K filename kwargs = Ok error →
  ∃ s : string,
    description error = VStr s ∧
    (truthy url_name = false →
     contains "with no url_name" s ∧
     ∀ other : value,
       truthy other = false →
       construct K filename (<["url_name" := other]> kwargs) = Ok error) ∧
    (truthy url_name = true →
     (K = Kind.EmptyTag ∨ K = Kind.UnexpectedContent →
      contains ("with url_name '" +:+ fmt url_name +:+ "'") s) ∧
     (K = Kind.UnexpectedTag ∨ K = Kind.NonFlatFilename →
      contains ("with url_name " +:+ fmt url_name) s)).
Proof.
  intros HK Hu H.
  destruct K; simpl in HK; try (exfalso; intuition congruence); clear HK;
    unfold_init; rewrite Hu in H; destruct (truthy url_name) eqn:Htruthy;
    repeat case_match; simplify_eq;
    (eexists; split; [reflexivity |]; split; intros ?; try discriminate).
  all: try (split; [| intros other Hother; lookup_replaced; rewrite Hother;
                      repeat match goal with
                             | Hf : _ !! _ = Some _ |- _ => rewrite Hf
                             end; reflexivity ]).
  all: try (split; intros [?|?]; try discriminate).
  all: find_phrase.
Qed.

Lemma url_name_phrasing_witness :
  ∃ s : string,
    description
      {| kind := Kind.EmptyTag; _filename := "chapter/week1.xml";
         _description :=
           VStr "The <chapter> tag with url_name 'intro' is unexpectedly empty" |}
    = VStr s ∧
    (truthy (VStr "intro") = false →
     contains "with no url_name" s ∧
     ∀ other : value,
       truthy other = false →
       construct Kind.EmptyTag "chapter/week1.xml"
         (<["url_name" := other]>
            (<["tag" := VStr "chapter"]> {[ "url_name" := VStr "intro" ]}))
       = Ok {| kind := Kind.EmptyTag; _filename := "chapter/week1.xml";
               _description :=
                 VStr "The <chapter> tag with url_name 'intro' is unexpectedly empty" |}) ∧
    (truthy (VStr "intro") = true →
     (Kind.EmptyTag = Kind.EmptyTag ∨ Kind.EmptyTag = Kind.UnexpectedContent →
      contains ("with url_name '" +:+ fmt (VStr "intro") +:+ "'") s) ∧
     (Kind.EmptyTag = Kind.UnexpectedTag ∨ Kind.EmptyTag = Kind.NonFlatFilename →
      contains ("with url_name " +:+ fmt (VStr "intro")) s)).
Proof.
  apply (url_name_phrasing Kind.EmptyTag "chapter/week1.xml"
           (<["tag" := VStr "chapter"]> {[ "url_name" := VStr "intro" ]})
           (VStr "intro")).
  - simpl. tauto.
  - vm_compute. reflexivity.
  - vm_compute. reflexivity.
Defined.

(** The two renderings of [EmptyTag] side by side, and the falsy ones of
    the other three classes. *)
Example empty_tag_without_url_name :
  construct Kind.EmptyTag "chapter/week1.xml"
    (<["tag" := VStr "chapter"]> {[ "url_name" := VStr "" ]})
  = Ok {| kind := Kind.EmptyTag; _filename := "chapter/week1.xml";
          _description :=
            VStr "A <chapter> tag with no url_name is unexpectedly empty" |}.
Proof. reflexivity. Qed.

Example empty_tag_with_url_name :
  construct Kind.EmptyTag "chapter/week1.xml"
    (<["tag" := VStr "chapter"]> {[ "url_name" := VStr "intro" ]})
  = Ok {| kind := Kind.EmptyTag; _filename := "chapter/week1.xml";
          _description :=
            VStr "The <chapter> tag with url_name 'intro' is unexpectedly empty" |}.
Proof. reflexivity. Qed.

Example unexpected_tag_without_url_name :
  construct Kind.UnexpectedTag "chapter/week1.xml"
    (<["tag" := VStr "vertical"]>
       (<["parent" := VStr "chapter"]> {[ "url_name" := VNone ]}))
  = Ok {| kind := Kind.UnexpectedTag; _filename := "chapter/week1.xml";
          _description :=
            VStr "A <vertical> tag was unexpectedly found inside a <chapter> tag with no url_name" |}.
Proof. reflexivity. Qed.

Example non_flat_filename_without_url_name :
  construct Kind.NonFlatFilename "html/a:b.html" {[ "url_name" := VNone ]}
  = Ok {| kind := Kind.NonFlatFilename; _filename := "html/a:b.html";
          _description :=
            VStr "An <html> tag with no url_name uses obsolete colon notation to point to a subdirectory for filename html/a:b.html" |}.
Proof. reflexivity. Qed.

(** The spec's second scenario, on [TagMismatch]. *)
Example tag_mismatch_report :
  ∃ (errorstore : ErrorStore) (error : CourseError),
    raise_diagnostic empty_store Kind.TagMismatch "ch1.xml"
      (<["tag1" := VStr "chapter"]> {[ "tag2" := VStr "sequential" ]})
    = Ok (errorstore, error) ∧
    (report_errors errorstore "").2
    = unlines
        ["ERROR (ch1.xml): A file is of type <chapter> but opens with a <sequential> tag (TagMismatch)"].
Proof. eexists _, _. split; reflexivity. Qed.

(** ** Witnesses of the report properties *)

Example sample_store_raised :
  (s1 ← raise_diagnostic empty_store Kind.CourseXMLName "root.xml" ∅;
   s2 ← raise_diagnostic s1.1 Kind.InvalidXML "chapter/week1.xml"
          {[ "error" := VStr "Premature end of data in tag chapter line 1" ]};
   s3 ← raise_diagnostic s2.1 Kind.CourseXMLName "root.xml" ∅;
   Ok s3.1)
  = Ok sample_store.
Proof. reflexivity. Qed.

Example sample_store_report :
  (report_errors sample_store "").2
  = unlines
      [ "WARNING (root.xml): The course file, root.xml, is not named course.xml (CourseXMLName)";
        "ERROR (chapter/week1.xml): Premature end of data in tag chapter line 1 (InvalidXML)";
        "WARNING (root.xml): The course file, root.xml, is not named course.xml (CourseXMLName)" ].
Proof. reflexivity. Qed.

Lemma report_errors_one_line_per_error_witness :
  ∃ lines : list string,
    (report_errors sample_store "").2 = "" +:+ unlines lines ∧
    length lines = length (errors sample_store) ∧
    (∀ (i : nat) (error : CourseError),
        errors sample_store !! i = Some error →
        lines !! i
        = Some (level error +:+ " (" +:+ filename error +:+ "): "
                +:+ fmt (description error) +:+ " (" +:+ name error +:+ ")")) ∧
    count_newlines (unlines lines)
    = length (errors sample_store) + sum_list (map count_newlines lines) ∧
    (count_newlines (unlines lines) = length (errors sample_store) ↔
     Forall (λ l, count_newlines l = 0) lines).
Proof.
  apply (report_errors_one_line_per_error sample_store "").
  simpl. lia.
Defined.

Lemma report_errors_empty_store_one_line_witness :
  ∃ text : string,
    report_errors empty_store "" = (empty_store, "" +:+ text) ∧
    text = unlines ["No errors found!"] ∧
    text = "No errors found!" +:+ newline ∧
    count_newlines text = 1 ∧
    contains "o errors found" text.
Proof.
  apply (report_errors_empty_store_one_line empty_store "").
  reflexivity.
Defined.

Lemma report_errors_no_errors_found_witness :
  (report_errors empty_store "").2 = "" +:+ "No errors found!" +:+ newline.
Proof.
  apply (report_errors_no_errors_found empty_store ""). reflexivity.
Defined.

(** ** The remaining classes on concrete calls *)

Example invalid_html_call :
  construct Kind.InvalidHTML "html/intro.html"
    {[ "error" := VStr "Unexpected end tag : p, line 3, column 8" ]}
  = Ok {| kind := Kind.InvalidHTML; _filename := "html/intro.html";
          _description := VStr "Unexpected end tag : p, line 3, column 8" |}.
Proof. reflexivity. Qed.

Example extra_url_name_call :
  construct Kind.ExtraURLName "chapter/week1.xml" {[ "tag" := VStr "chapter" ]}
  = Ok {| kind := Kind.ExtraURLName; _filename := "chapter/week1.xml";
          _description :=
            VStr "The opening <chapter> tag shouldn't have a url_name attribute" |}.
Proof. reflexivity. Qed.

Example invalid_pointer_call :
  construct Kind.InvalidPointer "course.xml"
    (<["tag" := VStr "chapter"]> {[ "url_name" := VStr "week1" ]})
  = Ok {| kind := Kind.InvalidPointer; _filename := "course.xml";
          _description :=
            VStr "The <chapter> tag with url_name 'week1' looks like it is an invalid pointer tag" |}.
Proof. reflexivity. Qed.

Example file_does_not_exist_call :
  construct Kind.FileDoesNotExist "course.xml"
    (<["tag" := VStr "chapter"]>
       (<["url_name" := VStr "week1"]>
          {[ "new_file" := VStr "chapter/week1.xml" ]}))
  = Ok {| kind := Kind.FileDoesNotExist; _filename := "course.xml";
          _description :=
            VStr "The <chapter> tag with url_name week1 points to the file chapter/week1.xml that does not exist" |}.
Proof. reflexivity. Qed.

Example self_pointer_call :
  construct Kind.SelfPointer "chapter/week1.xml"
    (<["tag" := VStr "chapter"]> {[ "url_name" := VStr "week1" ]})
  = Ok {| kind := Kind.SelfPointer; _filename := "chapter/week1.xml";
          _description :=
            VStr "The tag <chapter> with url_name week1 appears to be pointing to itself" |}.
Proof. reflexivity. Qed.

Example unexpected_tag_with_url_name :
  construct Kind.UnexpectedTag "chapter/week1.xml"
    (<["tag" := VStr "vertical"]>
       (<["parent" := VStr "chapter"]> {[ "url_name" := VStr "week1" ]}))
  = Ok {| kind := Kind.UnexpectedTag; _filename := "chapter/week1.xml";
          _description :=
            VStr "A <vertical> tag was unexpectedly found inside the <chapter> tag with url_name week1" |}.
Proof. reflexivity. Qed.

Example possible_pointer_call :
  construct Kind.PossiblePointer "course.xml"
    (<["tag" := VStr "chapter"]>
       (<["url_name" := VStr "week1"]>
          {[ "new_file" := VStr "chapter/week1.xml" ]}))
  = Ok {| kind := Kind.PossiblePointer; _filename := "course.xml";
          _description :=
            VStr "The <chapter> tag with url_name 'week1' is not a pointer, but a file that it could point to exists (chapter/week1.xml)" |}.
Proof. reflexivity. Qed.

Example non_flat_url_name_call :
  construct Kind.NonFlatURLName "course.xml"
    (<["tag" := VStr "chapter"]> {[ "url_name" := VStr "2020:week1" ]})
  = Ok {| kind := Kind.NonFlatURLName; _filename := "course.xml";
          _description :=
            VStr "The <chapter> tag with url_name 2020:week1 uses obsolete colon notation in the url_name to point to a subdirectory" |}.
Proof. reflexivity. Qed.

Example non_flat_filename_with_url_name :
  construct Kind.NonFlatFilename "html/a:b.html" {[ "url_name" := VStr "intro" ]}
  = Ok {| kind := Kind.NonFlatFilename; _filename := "html/a:b.html";
          _description :=
            VStr "The <html> tag with url_name intro uses obsolete colon notation to point to a subdirectory for filename html/a:b.html" |}.
Proof. reflexivity. Qed.

(** The order of the lookups decides which key a [KeyError] names: an empty
    bag fails [EmptyTag] on [url_name], the key its test reads first. *)
Example empty_tag_first_missing_key :
  construct Kind.EmptyTag "chapter/week1.xml" ∅ = Raise (KeyError "url_name").
Proof. reflexivity. Qed.

Example tag_mismatch_first_missing_key :
  construct Kind.TagMismatch "chapter/week1.xml" ∅ = Raise (KeyError "tag1").
Proof. reflexivity. Qed.

(** * Further properties of the catalogue *)

Lemma supplied_lookup (K : Kind.t) (kwargs : gmap string value) :
  supplied K kwargs = true ↔
  ∀ field : string, In field (expects K) → is_Some (kwargs !! field).
Proof.
  unfold supplied. rewrite forallb_forall.
  split; intros H field Hin.
  - eapply bool_decide_eq_true_1. now apply H.
  - apply bool_decide_eq_true_2. now apply H.
Qed.

(** X1: keywords a class does not read are ignored: two bags that agree
    on the fields the class expects give the same outcome, instance or
    exception. *)
Theorem construct_ignores_other_keywords
    (K : Kind.t) (filename : string) (kwargs1 kwargs2 : gmap string value) :
  (∀ field : string, In field (expects K) → kwargs1 !! field = kwargs2 !! field) →
  construct K filename kwargs1 = construct K filename kwargs2.
Proof.
  intros H.
  destruct K; cbn [expects] in H; unfold_init;
    repeat match goal with
           | |- context [kwargs1 !! ?k] => rewrite (H k) by (simpl; tauto)
           end;
    reflexivity.
Qed.

Lemma construct_ignores_other_keywords_witness :
  construct Kind.ExtraURLName "chapter/week1.xml"
    (<["display_name" := VStr "Week 1"]> {[ "tag" := VStr "chapter" ]})
  = construct Kind.ExtraURLName "chapter/week1.xml" {[ "tag" := VStr "chapter" ]}.
Proof.
  apply (construct_ignores_other_keywords Kind.ExtraURLName).
  intros field [<- | []]. vm_compute. reflexivity.
Defined.

(** X2: a call returns an instance exactly when the bag holds every field
    the class expects and, for [UnexpectedContent], [text] is not [None]. *)
Theorem construct_succeeds_iff
    (K : Kind.t) (filename : string) (kwargs : gmap string value) :
  (∃ error : CourseError, construct K filename kwargs = Ok error) ↔
  supplied K kwargs = true ∧
  (K = Kind.UnexpectedContent → text_is_str kwargs = true).
Proof.
  rewrite supplied_lookup. unfold text_is_str. split.
  - intros [error H].
    destruct K; unfold_init; repeat case_match; simplify_eq;
      (split; [ intros field Hin; cbn [expects] in Hin;
                repeat (destruct Hin as [<- | Hin]; [eauto |]); destruct Hin
              | intros ?; first [ discriminate | reflexivity ] ]).
  - intros [Hsup Htext].
    destruct K; try specialize (Htext eq_refl); cbn [expects] in Hsup;
      unfold_init;
      repeat match goal with
             | |- context [kwargs !! ?k] =>
                 let v := fresh "v" in
                 let Hv := fresh "Hv" in
                 destruct (Hsup k) as [v Hv]; [simpl; tauto |];
                 rewrite Hv in *; clear Hv
             end;
      repeat case_match; simplify_eq; eauto.
Qed.

(** X3: the only exceptions a call raises are [KeyError], for a field the
    class expects and the bag lacks, and [AttributeError] for [strip], which
    only [UnexpectedContent] raises, when [text] is [None] and [url_name] and
    [tag] are present. *)
Theorem construct_exceptions
    (K : Kind.t) (filename : string) (kwargs : gmap string value) (e : exn) :
  construct K filename kwargs = Raise e →
  (∃ key : string,
      e = KeyError key ∧ In key (expects K) ∧ kwargs !! key = None) ∨
  (e = AttributeError "strip" ∧ K = Kind.UnexpectedContent ∧
   kwargs !! "text" = Some VNone ∧
   is_Some (kwargs !! "url_name") ∧ is_Some (kwargs !! "tag")).
Proof.
  intros H.
  destruct K; unfold_init; repeat case_match; simplify_eq;
    first [ left; eexists; split; [reflexivity |];
            split; [simpl; tauto | assumption]
          | right; repeat split; eauto ].
Qed.

Lemma construct_exceptions_witness :
  (∃ key : string,
      AttributeError "strip" = KeyError key ∧
      In key (expects Kind.UnexpectedContent) ∧
      (<["tag" := VStr "chapter"]>
         (<["url_name" := VStr "week1"]> {[ "text" := VNone ]})
       : gmap string value) !! key = None) ∨
  (AttributeError "strip" = AttributeError "strip" ∧
   Kind.UnexpectedContent = Kind.UnexpectedContent ∧
   (<["tag" := VStr "chapter"]>
      (<["url_name" := VStr "week1"]> {[ "text" := VNone ]})
    : gmap string value) !! "text" = Some VNone ∧
   is_Some ((<["tag" := VStr "chapter"]>
               (<["url_name" := VStr "week1"]> {[ "text" := VNone ]})
             : gmap string value) !! "url_name") ∧
   is_Some ((<["tag" := VStr "chapter"]>
               (<["url_name" := VStr "week1"]> {[ "text" := VNone ]})
             : gmap string value) !! "tag")).
Proof.
  apply (construct_exceptions Kind.UnexpectedContent "chapter/week1.xml").
  vm_compute. reflexivity.
Defined.

(** X4: a call raises [KeyError] for [key] exactly when [key] is the
    first key, in the order in which the body reads them, that the bag
    lacks. *)
Theorem construct_key_error_first_missing
    (K : Kind.t) (filename : string) (kwargs : gmap string value)
    (key : string) :
  construct K filename kwargs = Raise (KeyError key) ↔
  find (missing kwargs) (lookup_order K) = Some key.
Proof.
  destruct K; cbn [lookup_order find]; unfold missing; unfold_init;
    repeat case_match; simplify_eq;
    split; intros H; simplify_eq; reflexivity.
Qed.

(** X5: every tag name a class reads ([tag], [tag1], [tag2], [parent]) is
    put in the description between angle brackets. *)
Theorem tags_in_angle_brackets
    (K : Kind.t) (filename : string) (kwargs : gmap string value)
    (field : string) (tag : value) (error : CourseError) :
  In field ["tag"; "tag1"; "tag2"; "parent"] →
  In field (expects K) →
  kwargs !! field = Some tag →
  construct K filename kwargs = Ok error →
  ∃ s : string,
    description error = VStr s ∧ contains ("<" +:+ fmt tag +:+ ">") s.
Proof.
  intros Htag Hin Hf H.
  destruct K; cbn [expects] in Hin;
    repeat (destruct Hin as [<- | Hin]; [| try (destruct Hin; fail)]);
    try (exfalso; simpl in Htag; intuition congruence); clear Htag;
    unfold_init; rewrite ?Hf in H; repeat case_match; simplify_eq;
    (eexists; split; [reflexivity |]); find_phrase.
Qed.

Lemma tags_in_angle_brackets_witness :
  ∃ s : string,
    description
      {| kind := Kind.UnexpectedTag; _filename := "chapter/week1.xml";
         _description :=
           VStr "A <vertical> tag was unexpectedly found inside a <chapter> tag with no url_name" |}
    = VStr s ∧
    contains ("<" +:+ fmt (VStr "chapter") +:+ ">") s.
Proof.
  apply (tags_in_angle_brackets Kind.UnexpectedTag "chapter/week1.xml"
           (<["tag" := VStr "vertical"]>
              (<["parent" := VStr "chapter"]> {[ "url_name" := VNone ]}))
           "parent").
  - simpl. tauto.
  - simpl. tauto.
  - vm_compute. reflexivity.
  - vm_compute. reflexivity.
Defined.

(** X6: [InvalidPointer], [FileDoesNotExist], [SelfPointer],
    [PossiblePointer] and [NonFlatURLName] do not test [url_name]: whatever
    its value, the description contains [with url_name] followed by its
    text, in single quotes for [InvalidPointer] and [PossiblePointer]; so
    [None] is printed as the word [None] and the empty string as nothing. *)
Theorem url_name_always_printed
    (K : Kind.t) (filename : string) (kwargs : gmap string value)
    (url_name : value) (error : CourseError) :
  In K [ Kind.InvalidPointer; Kind.FileDoesNotExist; Kind.SelfPointer;
         Kind.PossiblePointer; Kind.NonFlatURLName ] →
  kwargs !! "url_name" = Some url_name →
  construct K filename kwargs = Ok error →
  ∃ s : string,
    description error = VStr s ∧
    (K = Kind.InvalidPointer ∨ K = Kind.PossiblePointer →
     contains ("with url_name '" +:+ fmt url_name +:+ "'") s) ∧
    (K = Kind.FileDoesNotExist ∨ K = Kind.SelfPointer ∨ K = Kind.NonFlatURLName →
     contains ("with url_name " +:+ fmt url_name +:+ " ") s) ∧
    (url_name = VNone → contains "None" s).
Proof.
  intros HK Hu H.
  destruct K; simpl in HK; try (exfalso; intuition congruence); clear HK;
    unfold_init; rewrite ?Hu in H; repeat case_match; simplify_eq;
    (eexists; split; [reflexivity |]);
    (split; [| split]); intros HK;
    try (exfalso; intuition congruence); try subst url_name; try clear HK;
    find_phrase.
Qed.

Lemma url_name_always_printed_witness :
  ∃ s : string,
    description
      {| kind := Kind.InvalidPointer; _filename := "course.xml";
         _description :=
           VStr "The <chapter> tag with url_name 'None' looks like it is an invalid pointer tag" |}
    = VStr s ∧
    (Kind.InvalidPointer = Kind.InvalidPointer
     ∨ Kind.InvalidPointer = Kind.PossiblePointer →
     contains ("with url_name '" +:+ fmt VNone +:+ "'") s) ∧
    (Kind.InvalidPointer = Kind.FileDoesNotExist
     ∨ Kind.InvalidPointer = Kind.SelfPointer
     ∨ Kind.InvalidPointer = Kind.NonFlatURLName →
     contains ("with url_name " +:+ fmt VNone +:+ " ") s) ∧
    (VNone = VNone → contains "None" s).
Proof.
  apply (url_name_always_printed Kind.InvalidPointer "course.xml"
           (<["tag" := VStr "chapter"]> {[ "url_name" := VNone ]})).
  - simpl. tauto.
  - vm_compute. reflexivity.
  - vm_compute. reflexivity.
Defined.

(** X7: only [CourseXMLDoesNotExist], [CourseXMLName] and
    [NonFlatFilename] put the filename in the description, and they always
    do. *)
Theorem filename_in_description
    (K : Kind.t) (filename : string) (kwargs : gmap string value)
    (error : CourseError) :
  In K [ Kind.CourseXMLDoesNotExist; Kind.CourseXMLName; Kind.NonFlatFilename ] →
  construct K filename kwargs = Ok error →
  ∃ s : string, description error = VStr s ∧ contains filename s.
Proof.
  intros HK H.
  destruct K; simpl in HK; try (exfalso; intuition congruence); clear HK;
    unfold_init; repeat case_match; simplify_eq;
    (eexists; split; [reflexivity |]); find_phrase.
Qed.

Lemma filename_in_description_witness :
  ∃ s : string,
    description
      {| kind := Kind.CourseXMLName; _filename := "root.xml";
         _description := VStr "The course file, root.xml, is not named course.xml" |}
    = VStr s ∧
    contains "root.xml" s.
Proof.
  apply (filename_in_description Kind.CourseXMLName "root.xml" ∅).
  - simpl. tauto.
  - vm_compute. reflexivity.
Defined.

(** X8: for the other twelve classes the filename is recorded but plays
    no part in the description: the same bag under another filename gives the
    same description, and the same exception when the call raises. *)
Theorem description_independent_of_filename
    (K : Kind.t) (filename1 filename2 : string) (kwargs : gmap string value) :
  ¬ In K [ Kind.CourseXMLDoesNotExist; Kind.CourseXMLName; Kind.NonFlatFilename ] →
  (∀ error1 : CourseError,
      construct K filename1 kwargs = Ok error1 →
      ∃ error2 : CourseError,
        construct K filename2 kwargs = Ok error2 ∧
        description error2 = description error1 ∧
        filename error1 = filename1 ∧ filename error2 = filename2) ∧
  (∀ e : exn,
      construct K filename1 kwargs = Raise e →
      construct K filename2 kwargs = Raise e).
Proof.
  intros HK.
  destruct K; try (exfalso; apply HK; simpl; tauto); clear HK;
    (split; [intros error1 H | intros e H]);
    unfold_init; repeat case_match; simplify_eq;
    first [ reflexivity | eexists; repeat split; reflexivity ].
Qed.

Lemma description_independent_of_filename_witness :
  ∃ error2 : CourseError,
    construct Kind.ExtraURLName "chapter/week2.xml" {[ "tag" := VStr "chapter" ]}
    = Ok error2 ∧
    description error2
    = description
        {| kind := Kind.ExtraURLName; _filename := "chapter/week1.xml";
           _description :=
             VStr "The opening <chapter> tag shouldn't have a url_name attribute" |} ∧
    filename
      {| kind := Kind.ExtraURLName; _filename := "chapter/week1.xml";
         _description :=
           VStr "The opening <chapter> tag shouldn't have a url_name attribute" |}
    = "chapter/week1.xml" ∧
    filename error2 = "chapter/week2.xml".
Proof.
  destruct (description_independent_of_filename Kind.ExtraURLName
              "chapter/week1.xml" "chapter/week2.xml"
              {[ "tag" := VStr "chapter" ]}) as [H _].
  - simpl. intuition discriminate.
  - apply H. vm_compute. reflexivity.
Defined.

(** X9: in the four classes with two phrasings, a truthy and a falsy
    [url_name] never give the same description when the other fields are the
    same. *)
Theorem phrasings_differ
    (K : Kind.t) (filename : string) (kwargs : gmap string value)
    (given absent : value) (error1 error2 : CourseError) :
  In K [ Kind.EmptyTag; Kind.UnexpectedTag; Kind.UnexpectedContent;
         Kind.NonFlatFilename ] →
  truthy given = true →
  truthy absent = false →
  construct K filename (<["url_name" := given]> kwargs) = Ok error1 →
  construct K filename (<["url_name" := absent]> kwargs) = Ok error2 →
  description error1 ≠ description error2.
Proof.
  intros HK Hg Ha H1 H2.
  destruct K; simpl in HK; try (exfalso; intuition congruence); clear HK;
    unfold_init; revert H1 H2; lookup_replaced; rewrite Hg, Ha;
    intros H1 H2; repeat case_match; simplify_eq;
    unfold description; cbn [_description]; intros Heq;
    simplify_eq.
Qed.

Lemma phrasings_differ_witness :
  description
    {| kind := Kind.UnexpectedTag; _filename := "chapter/week1.xml";
       _description :=
         VStr "A <vertical> tag was unexpectedly found inside the <chapter> tag with url_name week1" |}
  ≠ description
      {| kind := Kind.UnexpectedTag; _filename := "chapter/week1.xml";
         _description :=
           VStr "A <vertical> tag was unexpectedly found inside a <chapter> tag with no url_name" |}.
Proof.
  apply (phrasings_differ Kind.UnexpectedTag "chapter/week1.xml"
           (<["tag" := VStr "vertical"]> {[ "parent" := VStr "chapter" ]})
           (VStr "week1") VNone).
  - simpl. tauto.
  - reflexivity.
  - reflexivity.
  - vm_compute. reflexivity.
  - vm_compute. reflexivity.
Defined.

(** ** [UnexpectedContent]: what the text can and cannot change *)

Lemma lstrip_all_space (s : string) : all_space s = true → lstrip s = "".
Proof.
  induction s as [|c s IH]; [reflexivity |]. cbn [all_space lstrip].
  intros [Hc Hs]%andb_prop. rewrite Hc. now apply IH.
Qed.

Lemma rstrip_all_space (s : string) : all_space s = true → rstrip s = "".
Proof.
  induction s as [|c s IH]; [reflexivity |]. cbn [all_space rstrip].
  intros [Hc Hs]%andb_prop. now rewrite (IH Hs), Hc.
Qed.

Lemma lstrip_app_space (lead s : string) :
  all_space lead = true → lstrip (lead +:+ s) = lstrip s.
Proof.
  induction lead as [|c lead IH]; [reflexivity |]. cbn [all_space].
  intros [Hc Hs]%andb_prop. cbn [String.append lstrip]. rewrite Hc. now apply IH.
Qed.

Lemma lstrip_app_keep (s t : string) :
  all_space s = false → lstrip (s +:+ t) = lstrip s +:+ t.
Proof.
  induction s as [|c s IH]; [discriminate |]. cbn [all_space String.append lstrip].
  destruct (isspace c); [apply IH | reflexivity].
Qed.

Lemma rstrip_app_space (s trail : string) :
  all_space trail = true → rstrip (s +:+ trail) = rstrip s.
Proof.
  intros Ht. induction s as [|c s IH]; [now apply rstrip_all_space |].
  cbn [String.append rstrip]. now rewrite IH.
Qed.

Lemma strip_padding (lead s trail : string) :
  all_space lead = true → all_space trail = true →
  strip (lead +:+ s +:+ trail) = strip s.
Proof.
  intros Hl Ht. unfold strip. rewrite lstrip_app_space by exact Hl.
  destruct (all_space s) eqn:Hs.
  - rewrite lstrip_app_space by exact Hs.
    now rewrite (lstrip_all_space trail Ht), (lstrip_all_space s Hs).
  - rewrite lstrip_app_keep by exact Hs. now apply rstrip_app_space.
Qed.

Lemma slice_to_length_le (n : nat) (s : string) :
  String.length (slice_to n s) ≤ n.
Proof.
  revert s. induction n as [|n IH]; intros [|c s]; cbn [slice_to String.length];
    try lia. specialize (IH s). lia.
Qed.

(** X10: however long the text, it adds at most ten characters to the
    description of an [UnexpectedContent]: the description is at most 71
    characters longer than the tag and the url_name together. *)
Theorem unexpected_content_bounded
    (filename : string) (kwargs : gmap string value) (error : CourseError) :
  construct Kind.UnexpectedContent filename kwargs = Ok error →
  ∃ (tag url_name : value) (s : string),
    kwargs !! "tag" = Some tag ∧ kwargs !! "url_name" = Some url_name ∧
    description error = VStr s ∧
    String.length s
    ≤ 71 + String.length (fmt tag) + String.length (fmt url_name).
Proof.
  unfold_init. intros H.
  pose (cut := slice_to 10).
  assert (∀ t : string, String.length (cut t) ≤ 10) as Hcut
    by apply slice_to_length_le.
  change (slice_to 10) with cut in H. clearbody cut.
  repeat case_match; simplify_eq;
    (eexists _, _, _; split; [reflexivity |]; split; [reflexivity |];
     split; [reflexivity |]);
    repeat (cbn [String.length]; rewrite ?append_length);
    match goal with
    | |- context [cut ?t] => specialize (Hcut t)
    end;
    lia.
Qed.

Lemma unexpected_content_bounded_witness :
  ∃ (tag url_name : value) (s : string),
    (<["tag" := VStr "html"]>
       (<["url_name" := VStr "intro"]>
          {[ "text" := VStr "This is a long paragraph of text" ]})
     : gmap string value) !! "tag" = Some tag ∧
    (<["tag" := VStr "html"]>
       (<["url_name" := VStr "intro"]>
          {[ "text" := VStr "This is a long paragraph of text" ]})
     : gmap string value) !! "url_name" = Some url_name ∧
    description
      {| kind := Kind.UnexpectedContent; _filename := "html/intro.xml";
         _description :=
           VStr "The <html> tag with url_name 'intro' should not contain any text (This is a ...)" |}
    = VStr s ∧
    String.length s
    ≤ 71 + String.length (fmt tag) + String.length (fmt url_name).
Proof.
  apply (unexpected_content_bounded "html/intro.xml").
  vm_compute. reflexivity.
Defined.

(** X11: whitespace around the text does not change the outcome of
    [UnexpectedContent]: a text and the same text with whitespace added at
    either end give the same instance. *)
Theorem unexpected_content_ignores_padding
    (filename : string) (kwargs : gmap string value)
    (text lead trail : string) :
  all_space lead = true →
  all_space trail = true →
  kwargs !! "text" = Some (VStr text) →
  construct Kind.UnexpectedContent filename
    (<["text" := VStr (lead +:+ text +:+ trail)]> kwargs)
  = construct Kind.UnexpectedContent filename kwargs.
Proof.
  intros Hl Ht Htext. unfold_init. lookup_replaced. rewrite Htext.
  rewrite (strip_padding lead text trail Hl Ht). reflexivity.
Qed.

Lemma unexpected_content_ignores_padding_witness :
  construct Kind.UnexpectedContent "html/intro.xml"
    (<["text" := VStr ("  " +:+ "stray" +:+ " ")]>
       (<["tag" := VStr "html"]>
          (<["url_name" := VNone]> {[ "text" := VStr "stray" ]})))
  = construct Kind.UnexpectedContent "html/intro.xml"
      (<["tag" := VStr "html"]>
         (<["url_name" := VNone]> {[ "text" := VStr "stray" ]})).
Proof.
  apply (unexpected_content_ignores_padding "html/intro.xml").
  - reflexivity.
  - reflexivity.
  - vm_compute. reflexivity.
Defined.

(** X12: a text that is empty or all whitespace leaves an empty excerpt:
    the description ends in [should not contain any text (...)]. *)
Theorem unexpected_content_blank_text
    (filename : string) (kwargs : gmap string value) (text : string)
    (error : CourseError) :
  all_space text = true →
  kwargs !! "text" = Some (VStr text) →
  construct Kind.UnexpectedContent filename kwargs = Ok error →
  ∃ s : string,
    description error = VStr s ∧
    endswith s " should not contain any text (...)".
Proof.
  intros Hblank Htext H.
  destruct (unexpected_content_description _ _ _ H) as (text' & head & Ht & Hd).
  rewrite Htext in Ht. simplify_eq. eexists. split; [exact Hd |].
  unfold strip. rewrite (lstrip_all_space text' Hblank). cbn [rstrip slice_to].
  now exists head.
Qed.

Lemma unexpected_content_blank_text_witness :
  ∃ s : string,
    description
      {| kind := Kind.UnexpectedContent; _filename := "html/intro.xml";
         _description :=
           VStr "A <html> tag with no url_name should not contain any text (...)" |}
    = VStr s ∧
    endswith s " should not contain any text (...)".
Proof.
  apply (unexpected_content_blank_text "html/intro.xml"
           (<["tag" := VStr "html"]>
              (<["url_name" := VStr ""]> {[ "text" := VStr "   " ]}))
           "   ").
  - reflexivity.
  - vm_compute. reflexivity.
  - vm_compute. reflexivity.
Defined.

(** * Further properties of the report *)

Lemma count_newlines_cons_zero (c : ascii) (s : string) :
  count_newlines (String c s) = 0 →
  Ascii.eqb c "010"%char = false ∧ count_newlines s = 0.
Proof. cbn [count_newlines]. destruct (Ascii.eqb c "010"); lia || (split; [reflexivity | lia]). Qed.

(** Two texts that begin with a line without inner terminators begin with
    the same line. *)
Lemma first_line_unique (a b r r' : string) :
  count_newlines a = 0 → count_newlines b = 0 →
  a +:+ newline +:+ r = b +:+ newline +:+ r' → a = b.
Proof.
  revert b. induction a as [|c a IH]; intros [|d b] Ha Hb Heq.
  - reflexivity.
  - apply count_newlines_cons_zero in Hb as [Hd _].
    cbn in Heq. injection Heq as <- _. discriminate.
  - apply count_newlines_cons_zero in Ha as [Hc _].
    cbn in Heq. injection Heq as -> _. discriminate.
  - apply count_newlines_cons_zero in Ha as [_ Ha].
    apply count_newlines_cons_zero in Hb as [_ Hb].
    cbn in Heq. injection Heq as -> Heq. f_equal. now apply IH.
Qed.

Lemma last_char_app (s : string) (c : ascii) :
  last_char (s +:+ String c "") = Some c.
Proof.
  induction s as [|d s IH]; [reflexivity |].
  cbn [String.append last_char]. rewrite IH.
  destruct (s +:+ String c "") eqn:E; [| reflexivity].
  destruct s; discriminate.
Qed.

Lemma report_line_last_char (error : CourseError) :
  last_char (report_line error) = Some ")"%char.
Proof.
  unfold report_line.
  replace (level error +:+ " (" +:+ filename error +:+ "): "
           +:+ fmt (description error) +:+ " (" +:+ name error +:+ ")")
    with ((level error +:+ " (" +:+ filename error +:+ "): "
           +:+ fmt (description error) +:+ " (" +:+ name error) +:+ ")")
    by now rewrite !append_assoc.
  apply last_char_app.
Qed.

(** X13: the message for an empty store cannot be mistaken: the text
    written is [No errors found!] and a terminator exactly when the store
    holds no error, whatever the errors of a non-empty store contain. *)
Theorem report_no_errors_iff_empty (errorstore : ErrorStore) (stdout : string) :
  (report_errors errorstore stdout).2
  = stdout +:+ "No errors found!" +:+ newline
  ↔ errors errorstore = [].
Proof.
  split.
  - destruct (errors errorstore) as [|error rest] eqn:E; [reflexivity |].
    rewrite report_errors_nonempty by congruence. rewrite E.
    cbn [snd map unlines]. intros Heq.
    apply (inj (String.append stdout)) in Heq.
    assert (count_newlines (report_line error) = 0
            ∧ count_newlines (unlines (map report_line rest)) = 0) as [H0 _].
    { apply (f_equal count_newlines) in Heq.
      rewrite !count_newlines_app in Heq. cbn in Heq. lia. }
    assert (report_line error = "No errors found!") as Hline.
    { apply (first_line_unique _ _ (unlines (map report_line rest)) "");
        [exact H0 | reflexivity |].
      rewrite Heq. reflexivity. }
    pose proof (report_line_last_char error) as Hlast.
    rewrite Hline in Hlast. discriminate.
  - intros E. rewrite report_errors_empty by exact E. cbn [snd unlines].
    now rewrite append_nil_r.
Qed.

(** X14: reporting a store in two batches writes what one report of the
    whole store writes, provided neither batch is empty. *)
Theorem report_errors_batches
    (batch1 batch2 : list CourseError) (stdout : string) :
  batch1 ≠ [] → batch2 ≠ [] →
  (report_errors {| errors := batch1 ++ batch2 |} stdout).2
  = (report_errors {| errors := batch2 |}
       (report_errors {| errors := batch1 |} stdout).2).2.
Proof.
  intros H1 H2.
  rewrite !report_errors_nonempty; cbn [errors snd]; try assumption.
  - rewrite map_app, unlines_app. now rewrite !append_assoc.
  - intros [E _]%app_eq_nil. contradiction.
Qed.

Lemma report_errors_batches_witness :
  (report_errors {| errors := sample_errors ++ sample_errors |} "").2
  = (report_errors {| errors := sample_errors |}
       (report_errors {| errors := sample_errors |} "").2).2.
Proof.
  apply (report_errors_batches sample_errors sample_errors "");
    discriminate.
Defined.

(** The precondition of X14 is needed: an empty batch prints the message
    for an empty store between the lines of the other. *)
Example report_errors_empty_batch :
  (report_errors {| errors := [] ++ sample_errors |} "").2
  ≠ (report_errors {| errors := sample_errors |}
       (report_errors {| errors := [] |} "").2).2.
Proof. vm_compute. discriminate. Qed.

(** X15: every call of [report_errors] writes a text that ends with a
    line terminator; the number of terminators written is the number of
    errors, or one for an empty store, plus the terminators inside the
    rendered lines. *)
Theorem report_errors_terminators (errorstore : ErrorStore) (stdout : string) :
  ∃ text : string,
    (report_errors errorstore stdout).2 = stdout +:+ text ∧
    endswith text newline ∧
    count_newlines text
    = (length (errors errorstore) `max` 1)
      + sum_list (map (λ error, count_newlines (report_line error))
                      (errors errorstore)).
Proof.
  destruct (errors errorstore) as [|error rest] eqn:E.
  - exists (unlines ["No errors found!"]).
    rewrite report_errors_empty by exact E. repeat split.
    now exists "No errors found!".
  - exists (unlines (map report_line (error :: rest))).
    rewrite report_errors_nonempty by congruence. rewrite E.
    split; [reflexivity |]. split.
    + destruct (exists_last (l := map report_line (error :: rest)))
        as (front & final & ->); [discriminate |].
      rewrite unlines_app. cbn [unlines]. rewrite append_nil_r.
      exists (unlines front +:+ final). now rewrite !append_assoc.
    + rewrite count_newlines_unlines_sum, length_map, map_map.
      cbn [length]. lia.
Qed.

(** A field with a line break of its own: one error, two physical lines. *)
Example report_line_with_inner_newline :
  ∃ (errorstore : ErrorStore) (error : CourseError) (text : string),
    raise_diagnostic empty_store Kind.UnexpectedContent "html/intro.xml"
      (<["tag" := VStr "html"]>
         (<["url_name" := VNone]>
            {[ "text" := VStr ("Hello" +:+ newline +:+ "  world") ]}))
    = Ok (errorstore, error) ∧
    (report_errors errorstore "").2 = text ∧
    count_newlines text = 2.
Proof. eexists _, _, _. repeat split. Qed.

(** ** Both directions of the equivalences on concrete calls *)

Lemma construct_succeeds_iff_witness :
  (∃ error : CourseError,
      construct Kind.TagMismatch "ch1.xml"
        (<["tag1" := VStr "chapter"]> {[ "tag2" := VStr "sequential" ]})
      = Ok error) ∧
  ¬ (supplied Kind.TagMismatch {[ "tag1" := VStr "chapter" ]} = true ∧
     (Kind.TagMismatch = Kind.UnexpectedContent →
      text_is_str {[ "tag1" := VStr "chapter" ]} = true)).
Proof.
  split.
  - apply (construct_succeeds_iff Kind.TagMismatch "ch1.xml").
    split; [vm_compute; reflexivity | discriminate].
  - intros H.
    apply (construct_succeeds_iff Kind.TagMismatch "ch1.xml") in H as [error H].
    vm_compute in H. discriminate.
Defined.

Lemma construct_key_error_first_missing_witness :
  construct Kind.UnexpectedContent "html/intro.xml" {[ "text" := VNone ]}
  = Raise (KeyError "url_name").
Proof.
  apply (construct_key_error_first_missing Kind.UnexpectedContent).
  vm_compute. reflexivity.
Defined.

Lemma report_no_errors_iff_empty_witness :
  (report_errors sample_store "").2 ≠ "" +:+ "No errors found!" +:+ newline.
Proof.
  intros H. apply (report_no_errors_iff_empty sample_store "") in H.
  discriminate.
Defined.
